(** * imagen-printer: the tiling and pagination engine

    A shallow embedding of [src/modules/imageProcessor.js] (class
    [ImageProcessor]), [src/modules/pdfGenerator.js] (class [PDFGenerator]),
    [src/modules/fileUploader.js] (class [FileUploader]), the export path of
    [src/main.js] and the tables and conversions of
    [src/utils/constants.js], with the properties the specification states
    about them and further properties of the code.

    Conventions of the embedding:
    - pixel counts, grid indices, part numbers and DPI values are natural
      numbers ([Math.floor (a / b)] on such values is [a / b] on [nat]);
    - the numbers of the page layout (page sizes, margins, scale factors,
      coordinates) are exact rationals [Q]; the sources compute them in
      binary64, and the rounding of that format is not modelled;
    - a JavaScript object used as a table is a [gmap] of its own properties
      together with the properties every object literal inherits from
      [Object.prototype] in a browser;
    - JavaScript strings are byte strings (UTF-8 for the accented letters);
    - a [throw] is the [Throw] result of an error monad. *)

From Stdlib Require Import QArith Qminmax Qround Qabs Lqa.
From stdpp Require Import gmap strings list fin_maps pretty.

Local Open Scope nat_scope.

(** ** JavaScript values the sources rely on *)

Module Js.

(** Exceptions: [new Error(message)] and the engine's [TypeError], whose
    message text is the engine's own. *)
Inductive Exn : Type :=
| Error (message : string)
| TypeError.

Inductive Result (A : Type) : Type :=
| Ok (a : A)
| Throw (e : Exn).
Arguments Ok {A} a.
Arguments Throw {A} e.

Definition bind {A B} (k : A → Result B) (r : Result A) : Result B :=
  match r with
  | Ok a => k a
  | Throw e => Throw e
  end.

Definition message (e : Exn) : string :=
  match e with
  | Error m => m
  | TypeError => "TypeError"
  end.

(** The property names an object literal inherits from
    [Object.prototype]. Reading one of them from a table yields a function
    (or, for [__proto__], the prototype object): a truthy value that has
    none of the table's fields. *)
Definition objectPrototypeKeys : list string :=
  [ "constructor"; "hasOwnProperty"; "isPrototypeOf";
    "propertyIsEnumerable"; "toLocaleString"; "toString"; "valueOf";
    "__proto__"; "__defineGetter__"; "__defineSetter__";
    "__lookupGetter__"; "__lookupSetter__" ].

(** The value of [table[key]]. *)
Inductive Lookup (A : Type) : Type :=
| Own (a : A)      (* an entry of the table itself *)
| Inherited        (* a member of [Object.prototype] *)
| Undefined.
Arguments Own {A} a.
Arguments Inherited {A}.
Arguments Undefined {A}.

Definition get {A} (table : gmap string A) (key : string) : Lookup A :=
  match table !! key with
  | Some a => Own a
  | None =>
      if decide (key ∈ objectPrototypeKeys) then Inherited else Undefined
  end.

(** [a || b]: [undefined] is the only falsy value a lookup can give. *)
Definition or {A} (a b : Lookup A) : Lookup A :=
  match a with
  | Undefined => b
  | _ => a
  end.

End Js.

#[global] Instance result_bind : MBind Js.Result := @Js.bind.
#[global] Instance result_ret : MRet Js.Result := @Js.Ok.

(** ** [src/utils/constants.js] *)

Module Constants.

Record PaperSize := {
  name : string;
  width : nat;     (* mm *)
  height : nat;    (* mm *)
  widthPx : nat;   (* px at 300 DPI *)
  heightPx : nat   (* px at 300 DPI *)
}.

Definition A4 : PaperSize :=
  {| name := "A4"; width := 210; height := 297;
     widthPx := 2480; heightPx := 3508 |}.

Definition A3 : PaperSize :=
  {| name := "A3"; width := 297; height := 420;
     widthPx := 3508; heightPx := 4961 |}.

Definition PAPER_SIZES : gmap string PaperSize :=
  list_to_map [ ("A4", A4); ("A3", A3) ].

(** An entry of [DIVISION_PATTERNS]; [landscape] is absent ([None]) in
    the entries that do not write it. The [name] and [description] texts
    play no part in the engine and are left out. *)
Record DivisionPattern := {
  rows : nat;
  cols : nat;
  paperSize : string;
  landscape : option bool
}.

Definition pat (r c : nat) (p : string) (l : option bool) :=
  {| rows := r; cols := c; paperSize := p; landscape := l |}.

Definition DIVISION_PATTERNS : gmap string DivisionPattern :=
  list_to_map
    [ ("A4_2x1",    pat 2 1 "A4" None);
      ("A4_1x2",    pat 1 2 "A4" None);
      ("A4_2x2",    pat 2 2 "A4" (Some false));
      ("A4_2x2_H",  pat 2 2 "A4" (Some true));
      ("A3_SINGLE", pat 1 1 "A3" None);
      ("A3_2x1",    pat 2 1 "A3" None);
      ("A3_1x2",    pat 1 2 "A3" None);
      ("A3_2x2",    pat 2 2 "A3" (Some false));
      ("A3_2x2_H",  pat 2 2 "A3" (Some true)) ].

(** [DEFAULT_SETTINGS.divisionPattern] *)
Definition DEFAULT_divisionPattern : string := "A4_2x2".

(** [convertMmToPx (mm, dpi) = Math.round ((mm * dpi) / 25.4)], with
    [Math.round x = floor (x + 1/2)]. *)
Definition convertMmToPx (mm dpi : nat) : Z :=
  Qfloor (inject_Z (Z.of_nat (mm * dpi)) / (254 # 10) + (1 # 2))%Q.


Definition SUPPORTED_FORMATS : list string :=
  [ "image/jpeg"; "image/jpg"; "image/png"; "image/webp"; "image/bmp" ].

(** [MAX_FILE_SIZE = 50 * 1024 * 1024] bytes. *)
Definition MAX_FILE_SIZE : N := 50 * 1024 * 1024.

End Constants.

(** ** [src/modules/imageProcessor.js] *)

Module ImageProcessor.

Record Size := { width : nat; height : nat }.
Record Position := { row : nat; col : nat }.

(** The source area of a [ctx.drawImage] call. *)
Record Area := { sourceX : nat; sourceY : nat; areaWidth : nat; areaHeight : nat }.

(** [partInfo]. The three pixel payloads of a part ([canvas], [imageData],
    [dataURL]) all hold the pixels that [drawImage] copied from one area
    of the original image; [source] is that area. *)
Record ImagePart := {
  source : Area;
  position : Position;
  dimensions : Size;
  paperSize : string;
  dpi : nat;
  partNumber : nat;
  totalParts : nat
}.

(** What [getGridDimensions] returns: [{rows, cols, paperSize}]. *)
Record GridDimensions := {
  rows : nat;
  cols : nat;
  gridPaperSize : string   (* [paperSize] *)
}.

(** The state of an [ImageProcessor]; a loaded image is known by its
    [width] and [height]. *)
Record t := {
  canvas : Size;
  originalImage : option Size;
  imageParts : list ImagePart
}.

Definition grid (r c : nat) (p : string) : GridDimensions :=
  {| rows := r; cols := c; gridPaperSize := p |}.

(** The local table of [getGridDimensions]. *)
Definition patterns : gmap string GridDimensions :=
  list_to_map
    [ ("A4_2x1",    grid 2 1 "A4");
      ("A4_1x2",    grid 1 2 "A4");
      ("A4_2x2",    grid 2 2 "A4");
      ("A3_SINGLE", grid 1 1 "A3");
      ("A3_2x1",    grid 2 1 "A3");
      ("A3_1x2",    grid 1 2 "A3");
      ("A3_2x2",    grid 2 2 "A3") ].

(** [return patterns[pattern] || patterns['A4_2x2']] *)
Definition getGridDimensions (pattern : string) : Js.Lookup GridDimensions :=
  Js.or (Js.get patterns pattern) (Js.get patterns "A4_2x2").

(** The object literal built in the body of the inner loop. *)
Definition partInfo (g : GridDimensions) (partWidth partHeight dpi : nat)
    (row col : nat) : ImagePart :=
  {| source := {| sourceX := col * partWidth; sourceY := row * partHeight;
                  areaWidth := partWidth; areaHeight := partHeight |};
     position := {| row := row; col := col |};
     dimensions := {| width := partWidth; height := partHeight |};
     paperSize := gridPaperSize g;
     dpi := dpi;
     partNumber := row * cols g + col + 1;
     totalParts := rows g * cols g |}.

(** The two nested [for] loops: every iteration pushes one part. *)
Definition divideLoop (rows cols : nat) (mk : nat → nat → ImagePart)
    : list ImagePart :=
  fold_left
    (fun parts row =>
       fold_left (fun parts col => parts ++ [mk row col]) (seq 0 cols) parts)
    (seq 0 rows) [].

(** The grid positions in row-major order: row 0 left to right, then
    row 1, and so on. *)
Definition rowMajor {A} (rows cols : nat) (mk : nat → nat → A) : list A :=
  flat_map (fun row => map (mk row) (seq 0 cols)) (seq 0 rows).

(** [divideImage (pattern, dpi)]: the parts returned and the processor
    afterwards. Reading [rows], [cols] and [paperSize] off a member of
    [Object.prototype] gives [undefined] three times: the part sizes are
    [NaN] (the canvas takes them as 0) and [row < undefined] is false, so
    no part is made. Every grid of the table has at least one row and one
    column, so the divisions are by 1 or 2. *)
Definition divideImage (this : t) (pattern : string) (dpi : nat)
    : Js.Result (list ImagePart * t) :=
  match originalImage this with
  | None => Js.Throw (Js.Error "No hay imagen cargada")
  | Some img =>
      match getGridDimensions pattern with
      | Js.Own g =>
          let partWidth := width img / cols g in
          let partHeight := height img / rows g in
          let parts :=
            divideLoop (rows g) (cols g) (partInfo g partWidth partHeight dpi) in
          Js.Ok (parts,
                 {| canvas := {| width := partWidth; height := partHeight |};
                    originalImage := Some img;
                    imageParts := parts |})
      | Js.Inherited =>
          Js.Ok ([],
                 {| canvas := {| width := 0; height := 0 |};
                    originalImage := Some img;
                    imageParts := [] |})
      | Js.Undefined => Js.Throw Js.TypeError
      end
  end.

(** A processor whose image has been loaded. *)
Definition loaded (w h : nat) : t :=
  {| canvas := {| width := 300; height := 150 |};
     originalImage := Some {| width := w; height := h |};
     imageParts := [] |}.

(** A pixel of the original image lies in an area. *)
Definition inArea (x y : nat) (a : Area) : Prop :=
  sourceX a ≤ x < sourceX a + areaWidth a ∧
  sourceY a ≤ y < sourceY a + areaHeight a.

#[global] Instance inArea_dec x y a : Decision (inArea x y a).
Proof. unfold inArea. apply _. Defined.

(** [loadImage (file)]: [decoded] is what the browser makes of the file,
    the size of the image or nothing when it cannot be decoded. The promise
    resolves to the image, or rejects and leaves the processor as it was. *)
Definition loadImage (this : t) (decoded : option Size)
    : Js.Result Size * t :=
  match decoded with
  | Some img =>
      (Js.Ok img,
       {| canvas := canvas this; originalImage := Some img;
          imageParts := imageParts this |})
  | None => (Js.Throw (Js.Error "No se pudo cargar la imagen"), this)
  end.

(** [cleanup ()] *)
Definition cleanup (this : t) : t :=
  {| canvas := canvas this; originalImage := None; imageParts := [] |}.

(** The objects [generatePreview] returns. The width and height of a
    preview are not rounded. *)
Module Preview.
Record t := {
  partNumber : nat;
  totalParts : nat;
  paperSize : string;
  position : Position;
  dimensions : Q * Q     (* [{ width, height }] *)
}.
End Preview.

(** The body of the [forEach] of [generatePreview], for a part with
    pixels (the ratio of a part without is not a rational number). *)
Definition previewOf (previewSize : Q) (part : ImagePart) : Preview.t :=
  let aspectRatio :=
    (inject_Z (Z.of_nat (width (dimensions part)))
     / inject_Z (Z.of_nat (height (dimensions part))))%Q in
  let size :=
    if Qlt_le_dec 1 aspectRatio
    then (previewSize, (previewSize / aspectRatio)%Q)
    else ((previewSize * aspectRatio)%Q, previewSize) in
  {| Preview.partNumber := partNumber part;
     Preview.totalParts := totalParts part;
     Preview.paperSize := paperSize part;
     Preview.position := position part;
     Preview.dimensions := size |}.

(** [generatePreview (pattern, previewSize)]: it calls
    [divideImage (pattern)], whose [dpi] then takes its default 300. *)
Definition generatePreview (this : t) (pattern : string) (previewSize : Q)
    : Js.Result (list Preview.t * t) :=
  match originalImage this with
  | None => Js.Ok ([], this)
  | Some _ =>
      match divideImage this pattern 300 with
      | Js.Ok (parts, this') => Js.Ok (previewOf previewSize <$> parts, this')
      | Js.Throw error => Js.Throw error
      end
  end.

End ImageProcessor.

(** ** [src/modules/pdfGenerator.js] *)

Module PDFGenerator.

Local Open Scope Q_scope.

(** A natural number used as a JavaScript number. *)
Definition num (n : nat) : Q := inject_Z (Z.of_nat n).

Record Point := { x : Q; y : Q }.
Record Color := { red : Q; green : Q; blue : Q }.
Definition rgb (r g b : Q) : Color := {| red := r; green := g; blue := b |}.

(** The draw calls the generator issues on a [PDFPage] of pdf-lib. *)
Inductive DrawOp : Type :=
| drawImage (x y width height : Q)
| drawLine (start end_ : Point) (color : Color)
| drawText (text : string) (x y size : Q) (color : Color).

(** A page: its size and the draw calls received so far, oldest first. *)
Record PDFPage := {
  getWidth : Q;
  getHeight : Q;
  content : list DrawOp
}.

Definition addPage (pageWidth pageHeight : Q) : PDFPage :=
  {| getWidth := pageWidth; getHeight := pageHeight; content := [] |}.

Definition draw (op : DrawOp) (page : PDFPage) : PDFPage :=
  {| getWidth := getWidth page; getHeight := getHeight page;
     content := content page ++ [op] |}.

(** The two measurements the generator asks of an embedded font. *)
Record PDFFont := {
  widthOfTextAtSize : string → Q → Q;
  heightAtSize : Q → Q
}.

Record Options := {
  paperSize : string;
  pattern : option Constants.DivisionPattern;
  margins : Q;
  addGuides : bool;
  addPageNumbers : bool
}.

(** The defaults of the destructuring in [generatePDF]. *)
Definition defaultOptions : Options :=
  {| paperSize := "A4"; pattern := None; margins := 10;
     addGuides := true; addPageNumbers := true |}.

(** The rectangle [addImageToPage] passes to [page.drawImage]. *)
Definition imagePlacement (page : PDFPage) (dimensions : ImageProcessor.Size)
    (margins : Q) : DrawOp :=
  let pageWidth := getWidth page in
  let pageHeight := getHeight page in
  let maxWidth := pageWidth - margins * 1.2 in
  let maxHeight := pageHeight - margins * 1.2 in
  let scale :=
    Qmin (maxWidth / num (ImageProcessor.width dimensions))
         (maxHeight / num (ImageProcessor.height dimensions)) in
  let finalWidth := num (ImageProcessor.width dimensions) * scale in
  let finalHeight := num (ImageProcessor.height dimensions) * scale in
  let x := (pageWidth - finalWidth) / 2 in
  let y := (pageHeight - finalHeight) / 2 in
  drawImage x y finalWidth finalHeight.

Definition addImageToPage (page : PDFPage) (dimensions : ImageProcessor.Size)
    (margins : Q) : PDFPage :=
  draw (imagePlacement page dimensions margins) page.

Definition guideLength : Q := 15.
Definition guideColor : Color := rgb 0.8 0.8 0.8.

(** The segments of [addCuttingGuides], in the order drawn. The body ends
    with the comment [// Esquinas inferiores similares...] and draws
    nothing for the other two corners. *)
Definition cuttingGuides (page : PDFPage) (margins : Q) : list DrawOp :=
  let pageWidth := getWidth page in
  [ (* Esquinas superior izquierda *)
    drawLine {| x := margins; y := margins |}
             {| x := margins + guideLength; y := margins |} guideColor;
    drawLine {| x := margins; y := margins |}
             {| x := margins; y := margins + guideLength |} guideColor;
    (* Esquina superior derecha *)
    drawLine {| x := pageWidth - margins - guideLength; y := margins |}
             {| x := pageWidth - margins; y := margins |} guideColor;
    drawLine {| x := pageWidth - margins; y := margins |}
             {| x := pageWidth - margins; y := margins + guideLength |}
             guideColor ].

Definition addCuttingGuides (page : PDFPage) (margins : Q) : PDFPage :=
  fold_left (fun page op => draw op page) (cuttingGuides page margins) page.

Definition textColor : Color := rgb 0.5 0.5 0.5.

(** The template literal of [addPageNumber]. *)
Definition pageNumberText (current total : nat) : string :=
  "Página " +:+ pretty current +:+ " de " +:+ pretty total.

Definition addPageNumber (page : PDFPage) (font : PDFFont)
    (current total : nat) : PDFPage :=
  let text := pageNumberText current total in
  let textWidth := widthOfTextAtSize font text 10 in
  draw (drawText text (getWidth page - textWidth - 30) 20 10 textColor) page.

(** The template literal of [addPartInfo]. *)
Definition partInfoText (part : ImageProcessor.ImagePart) : string :=
  "Posición: Fila "
    +:+ pretty (ImageProcessor.row (ImageProcessor.position part) + 1)%nat
    +:+ ", Columna "
    +:+ pretty (ImageProcessor.col (ImageProcessor.position part) + 1)%nat
    +:+ " | " +:+ ImageProcessor.paperSize part
    +:+ " | " +:+ pretty (ImageProcessor.dpi part) +:+ " DPI".

Definition addPartInfo (page : PDFPage) (font : PDFFont)
    (part : ImageProcessor.ImagePart) : PDFPage :=
  draw (drawText (partInfoText part) 30 (getHeight page - 20) 10 textColor)
       page.

Section Collaborators.

(** Whether [pdfDoc.embedPng] accepts the PNG payload of a part; it
    throws otherwise. *)
Variable embedPng : ImageProcessor.ImagePart → bool.

(** The Helvetica font embedded at the start of [generatePDF]. *)
Variable font : PDFFont.

Definition embedImage (part : ImageProcessor.ImagePart) : Js.Result unit :=
  if embedPng part then Js.Ok tt
  else Js.Throw (Js.Error "embedPng").

(** [pattern && pattern.landscape === true] *)
Definition isLandscape (options : Options) : bool :=
  match pattern options with
  | Some p => bool_decide (Constants.landscape p = Some true)
  | None => false
  end.

(** [PAPER_SIZES[paperSize]] read for its pixel size. A name that is
    not in the table has no [widthPx]: reading it off [undefined]
    throws, and off a member of [Object.prototype] gives [undefined],
    which [addPage] rejects as a page size. *)
Definition paperPx (paperSize : string) : Js.Result Constants.PaperSize :=
  match Js.get Constants.PAPER_SIZES paperSize with
  | Js.Own paper => Js.Ok paper
  | Js.Inherited => Js.Throw (Js.Error "addPage")
  | Js.Undefined => Js.Throw Js.TypeError
  end.

(** One iteration of the [for ... of imageParts.entries()] loop. *)
Definition composePage (options : Options) (total index : nat)
    (part : ImageProcessor.ImagePart) : Js.Result PDFPage :=
  paper ← paperPx (paperSize options);
  let pageWidth :=
    if isLandscape options then Constants.heightPx paper
    else Constants.widthPx paper in
  let pageHeight :=
    if isLandscape options then Constants.widthPx paper
    else Constants.heightPx paper in
  let page := addPage (num pageWidth) (num pageHeight) in
  _ ← embedImage part;
  let page :=
    addImageToPage page (ImageProcessor.dimensions part) (margins options) in
  let page :=
    if addGuides options then addCuttingGuides page (margins options)
    else page in
  let page :=
    if addPageNumbers options
    then addPageNumber page font (index + 1)%nat total
    else page in
  Js.Ok (addPartInfo page font part).

(** The loop, threading the document (its pages so far). *)
Fixpoint forEachPart (options : Options) (total index : nat)
    (parts : list ImageProcessor.ImagePart) (pdfDoc : list PDFPage)
    : Js.Result (list PDFPage) :=
  match parts with
  | [] => Js.Ok pdfDoc
  | part :: rest =>
      page ← composePage options total index part;
      forEachPart options total (S index) rest (pdfDoc ++ [page])
  end.

(** [generatePDF (imageParts, options)]: the pages of the saved
    document. Whatever is thrown inside is rethrown as a new [Error]. *)
Definition generatePDF (imageParts : list ImageProcessor.ImagePart)
    (options : Options) : Js.Result (list PDFPage) :=
  match forEachPart options (length imageParts) 0 imageParts [] with
  | Js.Ok pdfDoc => Js.Ok pdfDoc
  | Js.Throw error =>
      Js.Throw (Js.Error ("Error al generar PDF: " +:+ Js.message error))
  end.

End Collaborators.

End PDFGenerator.

(** ** [src/main.js]: the export path of the application *)

Module App.

Record t := {
  imageProcessor : ImageProcessor.t;
  currentFile : bool;          (* whether a file is held *)
  currentPattern : string;
  currentDpi : nat
}.

(** The options object [exportPDF] builds from
    [DIVISION_PATTERNS[this.currentPattern]]. Off a member of
    [Object.prototype] both [paperSize] and [landscape] read as
    [undefined]: the generator then takes its default paper and portrait
    pages. *)
Definition exportOptions (currentPattern : string)
    : Js.Result PDFGenerator.Options :=
  match Js.get Constants.DIVISION_PATTERNS currentPattern with
  | Js.Own p =>
      Js.Ok {| PDFGenerator.paperSize := Constants.paperSize p;
               PDFGenerator.pattern := Some p;
               PDFGenerator.margins := 8;
               PDFGenerator.addGuides := true;
               PDFGenerator.addPageNumbers := true |}
  | Js.Inherited =>
      Js.Ok {| PDFGenerator.paperSize :=
                 PDFGenerator.paperSize PDFGenerator.defaultOptions;
               PDFGenerator.pattern := None;
               PDFGenerator.margins := 8;
               PDFGenerator.addGuides := true;
               PDFGenerator.addPageNumbers := true |}
  | Js.Undefined => Js.Throw Js.TypeError
  end.

(** [exportPDF]: the pages handed to the download, or the error shown. *)
Definition exportPDF (embedPng : ImageProcessor.ImagePart → bool)
    (font : PDFGenerator.PDFFont) (this : t)
    : Js.Result (list PDFGenerator.PDFPage) :=
  if currentFile this then
    r ← ImageProcessor.divideImage (imageProcessor this)
          (currentPattern this) (currentDpi this);
    options ← exportOptions (currentPattern this);
    PDFGenerator.generatePDF embedPng font r.1 options
  else Js.Throw (Js.Error "No hay imagen cargada").

(** The text [exportPDF] passes to [showError], if any. *)
Definition exportPDFError (embedPng : ImageProcessor.ImagePart → bool)
    (font : PDFGenerator.PDFFont) (this : t) : option string :=
  match exportPDF embedPng font this with
  | Js.Ok _ => None
  | Js.Throw error => Some ("Error al generar PDF: " +:+ Js.message error)
  end.

End App.

(** ** [src/modules/fileUploader.js] *)

Module FileUploader.

(** A [File] of the browser, and the item FilePond keeps for it. *)
Record File := {
  name : string;
  size : N;
  type : string;
  lastModified : N
}.

Record PondFile := { id : string; file : File }.

(** The objects [handleFileAdd] and [getCurrentFile] build; the [file]
    field is the [File] itself, and only [handleFileAdd] sets
    [lastModified]. *)
Record FileInfo := {
  info_file : File;
  info_name : string;
  info_size : N;
  info_type : string;
  info_lastModified : option N;
  formattedSize : string
}.

(** The uploader: [pond] is [null] after [destroy], and otherwise holds the
    files of the FilePond instance. *)
Record t := { pond : option (list PondFile) }.

(** What a call made of its callbacks: the [fileInfo] handed to
    [onFileLoad] if it was called, and the messages handed to [onError]. *)
Record Calls := {
  onFileLoad_arg : option FileInfo;
  onError_args : list string
}.

(** [isValidFormat (file)] *)
Definition isValidFormat (file : File) : bool :=
  bool_decide (type file ∈ Constants.SUPPORTED_FORMATS).

(** [pond.removeFile (id)] and [pond.removeFiles ()] of FilePond. *)
Definition removeFile (fileId : string) (files : list PondFile)
    : list PondFile :=
  filter (fun f => id f ≠ fileId) files.

Section Callbacks.

(** [formatFileSize] of [constants.js], taken as given: it depends on
    [Math.log] and [toFixed]. *)
Variable formatFileSize : N → string.

(** The [onFileLoad] option: whether the callback's promise resolves. *)
Variable onFileLoad : FileInfo → Js.Result unit.

Definition fileInfo (f : File) : FileInfo :=
  {| info_file := f; info_name := name f; info_size := size f;
     info_type := type f; info_lastModified := Some (lastModified f);
     formattedSize := formatFileSize (size f) |}.

(** The [try] block of [handleFileAdd]: the [fileInfo] passed to the
    callback, if the callback is reached, and how the block ends. *)
Definition tryFileAdd (f : File) : option FileInfo * Js.Result unit :=
  if negb (isValidFormat f) then
    (None, Js.Throw (Js.Error "Formato de archivo no soportado"))
  else if (Constants.MAX_FILE_SIZE <? size f)%N then
    (None,
     Js.Throw (Js.Error ("Archivo demasiado grande. Máximo: "
                           +:+ formatFileSize Constants.MAX_FILE_SIZE)))
  else (Some (fileInfo f), onFileLoad (fileInfo f)).

(** [handleFileAdd (file)] on a live uploader with the files [files]: the
    files afterwards and the callbacks made. In the [catch] the error goes
    to [handleError] and the file is removed. What FilePond itself calls
    back when a file is removed is not part of this function. *)
Definition handleFileAdd (files : list PondFile) (item : PondFile)
    : list PondFile * Calls :=
  match tryFileAdd (file item) with
  | (called, Js.Ok _) =>
      (files, {| onFileLoad_arg := called; onError_args := [] |})
  | (called, Js.Throw error) =>
      (removeFile (id item) files,
       {| onFileLoad_arg := called; onError_args := [Js.message error] |})
  end.

(** [getCurrentFile ()]; [None] inside [Ok] is [null]. Reading
    [getFiles] off a [null] pond throws. *)
Definition getCurrentFile (this : t) : Js.Result (option FileInfo) :=
  match pond this with
  | None => Js.Throw Js.TypeError
  | Some [] => Js.Ok None
  | Some (item :: _) =>
      Js.Ok (Some {| info_file := file item; info_name := name (file item);
                     info_size := size (file item);
                     info_type := type (file item);
                     info_lastModified := None;
                     formattedSize := formatFileSize (size (file item)) |})
  end.

End Callbacks.

(** [hasFiles ()], as a truth value: [this.pond && ...]. *)
Definition hasFiles (this : t) : bool :=
  match pond this with
  | None => false
  | Some files => bool_decide (0 < length files)
  end.

(** [clear ()] *)
Definition clear (this : t) : t :=
  match pond this with
  | None => this
  | Some _ => {| pond := Some [] |}
  end.

(** [destroy ()] *)
Definition destroy (this : t) : t := {| pond := None |}.

End FileUploader.

(** ** Statements and fixtures used below *)

Module Statements.

Import PDFGenerator.
Local Open Scope Q_scope.

(** The texts drawn on a page, in the order drawn. *)
Definition texts (page : PDFPage) : list string :=
  omap (fun op => match op with
                  | drawText text _ _ _ _ => Some text
                  | _ => None
                  end) (content page).

(** A page has the pixel size of [paper] at the resolution [dpi], as
    [convertMmToPx] computes it from the millimetres of the table. *)
Definition pageAtDpi (paper : Constants.PaperSize) (landscape : bool)
    (dpi : nat) (page : PDFPage) : Prop :=
  let widthMm :=
    if landscape then Constants.height paper else Constants.width paper in
  let heightMm :=
    if landscape then Constants.width paper else Constants.height paper in
  getWidth page == inject_Z (Constants.convertMmToPx widthMm dpi) ∧
  getHeight page == inject_Z (Constants.convertMmToPx heightMm dpi).

#[global] Instance pageAtDpi_dec paper landscape dpi page :
  Decision (pageAtDpi paper landscape dpi page).
Proof. unfold pageAtDpi. apply and_dec; apply Qeq_dec. Defined.

(** A stand-in for the metrics of the embedded font: every character is
    half the text size wide. *)
Definition exampleFont : PDFFont :=
  {| widthOfTextAtSize := fun text size =>
       num (String.length text) * size / 2;
     heightAtSize := fun size => size |}.

(** The end points of a segment drawn. *)
Definition endpoints (op : DrawOp) : list Point :=
  match op with
  | drawLine start end_ _ => [start; end_]
  | _ => []
  end.

(** The parts of a [w] by [h] image. *)
Definition exampleParts' (w h : nat) (pattern : string) (dpi : nat)
    : list ImageProcessor.ImagePart :=
  match ImageProcessor.divideImage (ImageProcessor.loaded w h)
          pattern dpi with
  | Js.Ok r => r.1
  | Js.Throw _ => []
  end.

(** The parts of a 1000 by 700 image. *)
Definition exampleParts : string → nat → list ImageProcessor.ImagePart :=
  exampleParts' 1000 700.

(** The application with a 1000 by 700 image loaded. *)
Definition exampleApp (pattern : string) (dpi : nat) : App.t :=
  {| App.imageProcessor := ImageProcessor.loaded 1000 700;
     App.currentFile := true;
     App.currentPattern := pattern;
     App.currentDpi := dpi |}.

End Statements.

(** * Properties *)

(** ** The grid loop *)

Section GridLoop.

Import ImageProcessor.
Context {A : Type}.
Implicit Types (mk : nat → nat → A) (f : nat → A).

Lemma push_loop f (l : list nat) (acc : list A) :
  fold_left (fun parts i => parts ++ [f i]) l acc = acc ++ map f l.
Proof.
  revert acc; induction l as [|i l IH]; intros acc; simpl.
  - by rewrite app_nil_r.
  - by rewrite IH, <- app_assoc.
Qed.

Lemma nested_push_loop mk (cols : nat) (l : list nat) (acc : list A) :
  fold_left
    (fun parts row =>
       fold_left (fun parts col => parts ++ [mk row col]) (seq 0 cols) parts)
    l acc
  = acc ++ flat_map (fun row => map (mk row) (seq 0 cols)) l.
Proof.
  revert acc; induction l as [|i l IH]; intros acc; simpl.
  - by rewrite app_nil_r.
  - by rewrite IH, push_loop, <- app_assoc.
Qed.

Lemma rowMajor_S rows cols mk :
  rowMajor (S rows) cols mk
  = rowMajor rows cols mk ++ map (mk rows) (seq 0 cols).
Proof.
  unfold rowMajor. rewrite seq_S, flat_map_app. simpl.
  by rewrite app_nil_r.
Qed.

Lemma rowMajor_length rows cols mk :
  length (rowMajor rows cols mk) = rows * cols.
Proof.
  induction rows as [|r IH]; [done|].
  rewrite rowMajor_S, length_app, IH, length_map, length_seq. lia.
Qed.

Lemma rowMajor_lookup rows cols mk (row col : nat) :
  row < rows → col < cols →
  rowMajor rows cols mk !! (row * cols + col) = Some (mk row col).
Proof.
  induction rows as [|r IH]; intros Hr Hc; [lia|].
  rewrite rowMajor_S.
  destruct (decide (row = r)) as [->|Hne].
  - rewrite lookup_app_r; rewrite rowMajor_length; [|lia].
    replace (r * cols + col - r * cols) with col by lia.
    rewrite list_lookup_fmap, lookup_seq_lt by done. done.
  - rewrite lookup_app_l; [apply IH; lia|].
    rewrite rowMajor_length. nia.
Qed.

(** Every element sits at the index of its grid position. *)
Lemma rowMajor_lookup_inv rows cols mk (i : nat) (a : A) :
  rowMajor rows cols mk !! i = Some a →
  ∃ row col, row < rows ∧ col < cols ∧ i = row * cols + col ∧ a = mk row col.
Proof.
  intros Hi.
  assert (i < rows * cols) as Hlt.
  { rewrite <- (rowMajor_length rows cols mk). by eapply lookup_lt_Some. }
  assert (cols ≠ 0) as Hc by lia.
  exists (i / cols), (i mod cols).
  assert (i = i / cols * cols + i mod cols) as Hdiv.
  { rewrite (Nat.div_mod i cols) at 1 by done. lia. }
  assert (i mod cols < cols) by (by apply Nat.mod_upper_bound).
  assert (i / cols < rows) by (apply Nat.Div0.div_lt_upper_bound; lia).
  split_and!; [done..|].
  rewrite Hdiv, rowMajor_lookup in Hi by done. congruence.
Qed.

End GridLoop.

(** ** [divideImage] *)

Section DivideImage.

Import ImageProcessor.

Lemma divideLoop_rowMajor rows cols mk :
  divideLoop rows cols mk = rowMajor rows cols mk.
Proof. unfold divideLoop. by rewrite nested_push_loop. Qed.


Lemma rowMajor_Forall {A} (P : A → Prop) rows cols (mk : nat → nat → A) :
  (∀ row col, row < rows → col < cols → P (mk row col)) →
  Forall P (rowMajor rows cols mk).
Proof.
  intros HP. apply Forall_lookup. intros i a Hi.
  apply rowMajor_lookup_inv in Hi as (row & col & ? & ? & _ & ->). eauto.
Qed.

(** What [divideImage] returns once an image is loaded and the pattern
    resolves to a grid. *)
Lemma divideImage_loaded this img pattern dpi g :
  originalImage this = Some img →
  getGridDimensions pattern = Js.Own g →
  divideImage this pattern dpi =
    let partWidth := width img / cols g in
    let partHeight := height img / rows g in
    let parts :=
      rowMajor (rows g) (cols g) (partInfo g partWidth partHeight dpi) in
    Js.Ok (parts,
           {| canvas := {| width := partWidth; height := partHeight |};
              originalImage := Some img;
              imageParts := parts |}).
Proof.
  intros Himg Hg. unfold divideImage. rewrite Himg, Hg. simpl.
  by rewrite divideLoop_rowMajor.
Qed.

(** The lookup falls back to the ['A4_2x2'] entry for every name that is
    neither in the table nor inherited from [Object.prototype]. *)
Lemma getGridDimensions_fallback pattern :
  patterns !! pattern = None →
  pattern ∉ Js.objectPrototypeKeys →
  getGridDimensions pattern = Js.Own (grid 2 2 "A4").
Proof.
  intros Hnone Hproto. unfold getGridDimensions, Js.get at 1.
  rewrite Hnone. by rewrite decide_False.
Qed.

(** Every grid the lookup can give is an entry of the table, and has at
    least one row and one column. *)
Lemma getGridDimensions_entry pattern g :
  getGridDimensions pattern = Js.Own g →
  (∃ id, patterns !! id = Some g) ∧ 1 ≤ rows g ≤ 2 ∧ 1 ≤ cols g ≤ 2.
Proof.
  unfold getGridDimensions, Js.get at 1. intros Hg.
  assert (∃ id, patterns !! id = Some g) as [id Hid].
  { destruct (patterns !! pattern) as [g'|] eqn:Hp; simpl in Hg.
    - exists pattern. congruence.
    - destruct (decide _); [done|]. simpl in Hg.
      exists "A4_2x2". vm_compute in Hg. by injection Hg as <-. }
  split; [eauto|].
  apply elem_of_list_to_map_2 in Hid.
  repeat (apply elem_of_cons in Hid as [[= _ ->]|Hid]; [simpl; lia|]).
  by apply elem_of_nil in Hid.
Qed.

End DivideImage.

Section DivideImageClaims.

Import ImageProcessor.




(** Truncation: a 1001 by 701 image cut 2 by 2 gives parts of 500 by 350,
    and the last column and the last row of pixels are in no part. *)
Example divideImage_1001_701 :
  (λ part, (sourceX (source part), sourceY (source part), dimensions part))
    <$> Statements.exampleParts' 1001 701 "A4_2x2" 300
  = [ (0, 0, {| width := 500; height := 350 |});
      (500, 0, {| width := 500; height := 350 |});
      (0, 350, {| width := 500; height := 350 |});
      (500, 350, {| width := 500; height := 350 |}) ].
Proof. by vm_compute. Qed.


End DivideImageClaims.

Section SourceAreas.

Import ImageProcessor.






End SourceAreas.

Section PatternLookup.

Import ImageProcessor.

(** For every name of [DIVISION_PATTERNS] but ['A3_2x2_H'] the local
    table of [getGridDimensions] gives the grid and paper of that entry
    (for ['A4_2x2_H'] through the fallback, whose grid and paper happen to
    be the same). *)
Lemma getGridDimensions_DIVISION_PATTERNS id p :
  Constants.DIVISION_PATTERNS !! id = Some p →
  id ≠ "A3_2x2_H" →
  getGridDimensions id =
    Js.Own (grid (Constants.rows p) (Constants.cols p) (Constants.paperSize p)).
Proof.
  intros Hid Hne. apply elem_of_list_to_map_2 in Hid.
  repeat (apply elem_of_cons in Hid as [[= -> ->]|Hid];
          [by (done || vm_compute)|]).
  by apply elem_of_nil in Hid.
Qed.


(** A name that is neither in the table nor inherited is treated as
    ['A4_2x2']. *)
Lemma divideImage_unknown_pattern this pattern dpi :
  patterns !! pattern = None →
  pattern ∉ Js.objectPrototypeKeys →
  divideImage this pattern dpi
    = divideImage this Constants.DEFAULT_divisionPattern dpi.
Proof.
  intros Hnone Hproto. unfold divideImage.
  by rewrite (getGridDimensions_fallback pattern).
Qed.

(** The lookup is never [undefined], so with an image loaded [divideImage]
    throws for no pattern name at all. *)
Lemma getGridDimensions_defined pattern :
  getGridDimensions pattern ≠ Js.Undefined.
Proof.
  unfold getGridDimensions, Js.get at 1.
  destruct (patterns !! pattern); [done|]. by destruct (decide _).
Qed.

Lemma divideImage_never_throws this img pattern dpi :
  originalImage this = Some img →
  ∃ parts this', divideImage this pattern dpi = Js.Ok (parts, this').
Proof.
  intros Himg. unfold divideImage. rewrite Himg.
  pose proof (getGridDimensions_defined pattern) as Hdef.
  destruct (getGridDimensions pattern); [by eexists _, _..|done].
Qed.

(** Without an image it throws. *)
Lemma divideImage_no_image this pattern dpi :
  originalImage this = None →
  divideImage this pattern dpi = Js.Throw (Js.Error "No hay imagen cargada").
Proof. intros Himg. unfold divideImage. by rewrite Himg. Qed.


End PatternLookup.

(** ** [addImageToPage] *)

Section Placement.

Import PDFGenerator.
Local Open Scope Q_scope.

Lemma num_pos (n : nat) : (0 < n)%nat → 0 < num n.
Proof.
  intros Hn. unfold num. change 0 with (inject_Z 0).
  rewrite <- Zlt_Qlt. lia.
Qed.

Lemma Qdiv_pos (a b : Q) : 0 < a → 0 < b → 0 < a / b.
Proof.
  intros Ha Hb. apply Qlt_shift_div_l; [done|]. by rewrite Qmult_0_l.
Qed.

(** The sizes drawn keep the proportions of the part, whatever the
    inputs (no division involved). *)
Lemma imagePlacement_proportional page dimensions margins :
  ∃ x y finalWidth finalHeight,
    imagePlacement page dimensions margins
      = drawImage x y finalWidth finalHeight ∧
    finalWidth * num (ImageProcessor.height dimensions)
      == finalHeight * num (ImageProcessor.width dimensions).
Proof. eexists _, _, _, _. split; [reflexivity|]. ring. Qed.



(** C6. The image is placed at
    [x = (pageWidth - finalWidth) / 2], [y = (pageHeight - finalHeight) / 2]
    whatever the margin: its centre is the centre of the page,
    [x + finalWidth / 2 = pageWidth / 2] and
    [y + finalHeight / 2 = pageHeight / 2], and the gaps left on opposite
    sides are equal. The margin is no term of the origin; it enters only
    through [finalWidth] and [finalHeight]. *)
Theorem addImageToPage_centered page dimensions margins :
  ∃ x y finalWidth finalHeight,
    content (addImageToPage page dimensions margins)
      = content page ++ [drawImage x y finalWidth finalHeight] ∧
    x = (getWidth page - finalWidth) / 2 ∧
    y = (getHeight page - finalHeight) / 2 ∧
    x + finalWidth / 2 == getWidth page / 2 ∧
    y + finalHeight / 2 == getHeight page / 2 ∧
    getWidth page - (x + finalWidth) == x ∧
    getHeight page - (y + finalHeight) == y.
Proof.
  eexists _, _, _, _. split; [reflexivity|].
  split; [reflexivity|]. split; [reflexivity|].
  split_and!; field.
Qed.

End Placement.

(** ** [generatePDF] *)

Section GeneratePDF.

Import PDFGenerator.
Local Open Scope Q_scope.

Variable embedPng : ImageProcessor.ImagePart → bool.
Variable font : PDFFont.

Lemma paperPx_Ok paperSize paper :
  paperPx paperSize = Js.Ok paper ↔
  Constants.PAPER_SIZES !! paperSize = Some paper.
Proof.
  unfold paperPx, Js.get.
  destruct (Constants.PAPER_SIZES !! paperSize) as [p|].
  - split; congruence.
  - destruct (decide _); split; congruence.
Qed.

(** A page that was composed: its size and everything drawn on it. *)
Lemma composePage_Ok_inv options total index part page :
  composePage embedPng font options total index part = Js.Ok page →
  ∃ paper,
    Constants.PAPER_SIZES !! paperSize options = Some paper ∧
    embedPng part = true ∧
    let pageWidth :=
      num (if isLandscape options then Constants.heightPx paper
           else Constants.widthPx paper) in
    let pageHeight :=
      num (if isLandscape options then Constants.widthPx paper
           else Constants.heightPx paper) in
    let blank := addPage pageWidth pageHeight in
    let text := pageNumberText (index + 1) total in
    getWidth page = pageWidth ∧
    getHeight page = pageHeight ∧
    content page =
      [imagePlacement blank (ImageProcessor.dimensions part) (margins options)]
      ++ (if addGuides options then cuttingGuides blank (margins options)
          else [])
      ++ (if addPageNumbers options
          then [drawText text
                  (pageWidth - widthOfTextAtSize font text 10 - 30) 20 10
                  textColor]
          else [])
      ++ [drawText (partInfoText part) 30 (pageHeight - 20) 10 textColor].
Proof.
  unfold composePage. intros Hpage.
  destruct (paperPx (paperSize options)) as [paper|] eqn:Hpaper; [|done].
  apply paperPx_Ok in Hpaper. exists paper. split; [done|].
  unfold embedImage in Hpage. simpl in Hpage.
  destruct (embedPng part); [|done]. split; [done|].
  simpl in Hpage. injection Hpage as <-.
  by destruct (addGuides options), (addPageNumbers options).
Qed.

Lemma forEachPart_Ok_inv options total parts :
  ∀ index pdfDoc pages,
    forEachPart embedPng font options total index parts pdfDoc = Js.Ok pages →
    ∃ new,
      pages = pdfDoc ++ new ∧
      length new = length parts ∧
      ∀ (i : nat) part, parts !! i = Some part →
        ∃ page, new !! i = Some page ∧
                composePage embedPng font options total (index + i) part
                  = Js.Ok page.
Proof.
  induction parts as [|part rest IH]; intros index pdfDoc pages Hloop.
  - injection Hloop as <-. exists []. rewrite app_nil_r. by split_and!.
  - simpl in Hloop.
    destruct (composePage embedPng font options total index part)
      as [page|] eqn:Hpage; [|done].
    apply IH in Hloop as (new & -> & Hlen & Hnew).
    exists (page :: new). rewrite <- app_assoc. split_and!; [done|simpl; lia|].
    intros [|i] part' Hi; simpl in Hi.
    + injection Hi as <-. exists page. by rewrite Nat.add_0_r.
    + apply Hnew in Hi as (page' & ? & Hc). exists page'. split; [done|].
      by replace (index + S i)%nat with (S index + i)%nat by lia.
Qed.

(** The pages of a generated document are the composed pages of the
    parts, one per part and in their order. *)
Lemma generatePDF_Ok_inv parts options pages :
  generatePDF embedPng font parts options = Js.Ok pages →
  length pages = length parts ∧
  ∀ (i : nat) part, parts !! i = Some part →
    ∃ page, pages !! i = Some page ∧
            composePage embedPng font options (length parts) i part
              = Js.Ok page.
Proof.
  unfold generatePDF. intros Hgen.
  destruct (forEachPart _ _ _ _ _ _ _) as [doc|] eqn:Hloop; [|done].
  injection Hgen as <-.
  by apply forEachPart_Ok_inv in Hloop as (new & -> & ? & ?).
Qed.

Lemma forEachPart_total options total paper parts :
  Constants.PAPER_SIZES !! paperSize options = Some paper →
  Forall (fun part => embedPng part = true) parts →
  ∀ index pdfDoc,
    ∃ pages,
      forEachPart embedPng font options total index parts pdfDoc = Js.Ok pages.
Proof.
  intros Hpaper Hembed. apply paperPx_Ok in Hpaper.
  induction Hembed as [|part rest Hpart _ IH]; intros index pdfDoc.
  - by eexists.
  - simpl. unfold composePage, embedImage. rewrite Hpaper, Hpart. simpl.
    apply IH.
Qed.

(** [generatePDF] returns a document whenever the paper is one of the
    table and pdf-lib takes the image of every part. *)
Lemma generatePDF_total parts options paper :
  Constants.PAPER_SIZES !! paperSize options = Some paper →
  Forall (fun part => embedPng part = true) parts →
  ∃ pages, generatePDF embedPng font parts options = Js.Ok pages.
Proof.
  intros Hpaper Hembed. unfold generatePDF.
  destruct (forEachPart_total options (length parts) paper parts
              Hpaper Hembed 0%nat []) as [pages ->].
  by eexists.
Qed.

End GeneratePDF.

Section PageSize.

Import PDFGenerator Statements.
Local Open Scope Q_scope.


Lemma isLandscape_true options :
  isLandscape options = true ↔
  ∃ p, pattern options = Some p ∧ Constants.landscape p = Some true.
Proof.
  unfold isLandscape. destruct (pattern options) as [p|].
  - rewrite bool_decide_eq_true. split.
    + intros Hl. by exists p.
    + by intros (? & [= <-] & Hl).
  - split; [done|]. by intros (? & ? & _).
Qed.




End PageSize.

(** ** Cutting guides and labels *)

Section Guides.

Import PDFGenerator Statements.
Local Open Scope Q_scope.

Lemma addCuttingGuides_content page margins :
  content (addCuttingGuides page margins)
    = content page ++ cuttingGuides page margins.
Proof.
  unfold addCuttingGuides, cuttingGuides. simpl.
  by rewrite <- !app_assoc.
Qed.

(** Every segment of the guides starts at height [margins] and ends at
    height [margins] or [margins + 15]. *)
Lemma cuttingGuides_heights page margins :
  length (cuttingGuides page margins) = 4%nat ∧
  Forall (fun op =>
            ∃ start end_ color,
              op = drawLine start end_ color ∧
              y start = margins ∧
              (y end_ = margins ∨ y end_ = margins + guideLength))
         (cuttingGuides page margins).
Proof.
  split; [done|].
  repeat constructor; eexists _, _, _; (split; [reflexivity|]); simpl; auto.
Qed.

(** C7. On an A4 page with the margin 8 of the export, [addCuttingGuides]
    draws four segments and no more: the two marks of the corners at
    height 8. Every end point of a segment has [y <= 23]; a mark of the
    two corners at the opposite edge would reach height 3508 - 8. *)
Theorem addCuttingGuides_two_corners :
  let page := addPage (num 2480) (num 3508) in
  let guides := cuttingGuides page 8 in
  content (addCuttingGuides page 8) = guides ∧
  length guides = 4%nat ∧
  endpoints <$> guides
    = [ [ {| x := 8; y := 8 |}; {| x := 8 + 15; y := 8 |} ];
        [ {| x := 8; y := 8 |}; {| x := 8; y := 8 + 15 |} ];
        [ {| x := num 2480 - 8 - 15; y := 8 |};
          {| x := num 2480 - 8; y := 8 |} ];
        [ {| x := num 2480 - 8; y := 8 |};
          {| x := num 2480 - 8; y := 8 + 15 |} ] ] ∧
  Forall (fun point => y point <= 23 ∧ ¬ y point == getHeight page - 8)
         (concat (endpoints <$> guides)).
Proof.
  intros page guides.
  split; [apply addCuttingGuides_content|]. split; [done|].
  split; [done|].
  repeat constructor; simpl; by vm_compute.
Qed.

End Guides.

Section Labels.

Import PDFGenerator Statements.
Local Open Scope Q_scope.

(** The parts [divideImage] returns are numbered by their place in the
    list, and [totalParts] is their count. *)
Lemma divideImage_Ok_numbering this pattern dpi parts this' :
  ImageProcessor.divideImage this pattern dpi = Js.Ok (parts, this') →
  ∀ (i : nat) part, parts !! i = Some part →
    ImageProcessor.partNumber part = (i + 1)%nat ∧
    ImageProcessor.totalParts part = length parts.
Proof.
  unfold ImageProcessor.divideImage. intros Hdiv.
  destruct (ImageProcessor.originalImage this) as [img|]; [|done].
  destruct (ImageProcessor.getGridDimensions pattern) as [g| |]; [| |done].
  - injection Hdiv as <- _. rewrite divideLoop_rowMajor.
    intros i part Hi. rewrite rowMajor_length.
    apply rowMajor_lookup_inv in Hi as (row & col & _ & _ & -> & ->).
    split; [simpl; lia|done].
  - injection Hdiv as <- _. by intros i part Hi.
Qed.

(** C9, as the code has it. With page numbers enabled, the page of each
    part of a [divideImage] result carries two texts of size 10: the page
    number ["Página {current} de {total}"], whose right end is 30 units
    from the right edge and whose base line is at height 20, and
    ["Posición: Fila {row+1}, Columna {col+1} | {paperSize} | {dpi} DPI"]
    at 30 units from the left edge and 20 units below the top edge. The
    current page number is the part number (the index in the list plus
    one), the total is the number of parts, and row and column are the
    grid indices plus one. *)
Theorem generatePDF_labels embedPng font this pattern dpi parts this'
    options pages :
  ImageProcessor.divideImage this pattern dpi = Js.Ok (parts, this') →
  addPageNumbers options = true →
  generatePDF embedPng font parts options = Js.Ok pages →
  length pages = length parts ∧
  ∀ (i : nat) part page,
    parts !! i = Some part → pages !! i = Some page →
    let text :=
      "Página " +:+ pretty (ImageProcessor.partNumber part)
        +:+ " de " +:+ pretty (ImageProcessor.totalParts part) in
    let info :=
      "Posición: Fila "
        +:+ pretty (ImageProcessor.row (ImageProcessor.position part) + 1)%nat
        +:+ ", Columna "
        +:+ pretty (ImageProcessor.col (ImageProcessor.position part) + 1)%nat
        +:+ " | " +:+ ImageProcessor.paperSize part
        +:+ " | " +:+ pretty (ImageProcessor.dpi part) +:+ " DPI" in
    ImageProcessor.partNumber part = (i + 1)%nat ∧
    ImageProcessor.totalParts part = length pages ∧
    texts page = [text; info] ∧
    drawText text (getWidth page - widthOfTextAtSize font text 10 - 30)
             20 10 textColor ∈ content page ∧
    drawText info 30 (getHeight page - 20) 10 textColor ∈ content page.
Proof.
  intros Hdiv Hnumbers Hgen.
  apply generatePDF_Ok_inv in Hgen as [Hlen Hpages].
  split; [done|]. intros i part page Hpart Hpage text info.
  destruct (divideImage_Ok_numbering _ _ _ _ _ Hdiv i part Hpart)
    as [Hnum Htotal].
  apply Hpages in Hpart as (page' & Hpage' & Hc).
  assert (page' = page) as -> by congruence.
  apply composePage_Ok_inv in Hc
    as (paper & _ & _ & Hw & Hh & Hcontent).
  rewrite Hnumbers in Hcontent.
  assert (pageNumberText (i + 1) (length parts) = text) as Htext.
  { unfold text, pageNumberText. by rewrite Hnum, Htotal. }
  rewrite Htext, <- Hw, <- Hh in Hcontent.
  change (partInfoText part) with info in Hcontent.
  split; [done|]. split; [congruence|].
  unfold texts. rewrite Hcontent. split_and!.
  - by destruct (addGuides options).
  - rewrite !elem_of_app. right. right. left. apply list_elem_of_singleton.
    done.
  - rewrite !elem_of_app. right. right. right. apply list_elem_of_singleton.
    done.
Qed.

Lemma generatePDF_labels_witness :
  ∃ parts this' pages,
    ImageProcessor.divideImage (ImageProcessor.loaded 1000 700) "A4_2x2" 300
      = Js.Ok (parts, this') ∧
    addPageNumbers defaultOptions = true ∧
    generatePDF (fun _ => true) exampleFont parts defaultOptions
      = Js.Ok pages ∧
    length pages = length parts ∧
    texts <$> pages
      = [ [ "Página 1 de 4"; "Posición: Fila 1, Columna 1 | A4 | 300 DPI" ];
          [ "Página 2 de 4"; "Posición: Fila 1, Columna 2 | A4 | 300 DPI" ];
          [ "Página 3 de 4"; "Posición: Fila 2, Columna 1 | A4 | 300 DPI" ];
          [ "Página 4 de 4"; "Posición: Fila 2, Columna 2 | A4 | 300 DPI" ] ] ∧
    ∀ (i : nat) part page,
      parts !! i = Some part → pages !! i = Some page →
      ImageProcessor.partNumber part = (i + 1)%nat ∧
      ImageProcessor.totalParts part = length pages.
Proof.
  set (parts := exampleParts "A4_2x2" 300).
  set (this' :=
         {| ImageProcessor.canvas :=
              {| ImageProcessor.width := 500; ImageProcessor.height := 350 |};
            ImageProcessor.originalImage :=
              Some {| ImageProcessor.width := 1000;
                      ImageProcessor.height := 700 |};
            ImageProcessor.imageParts := parts |}).
  exists parts, this'. eexists.
  split; [vm_compute; reflexivity|]. split; [reflexivity|].
  split; [vm_compute; reflexivity|].
  match goal with
  | |- length ?pages = _ ∧ _ =>
      destruct (generatePDF_labels (fun _ => true) exampleFont
                  (ImageProcessor.loaded 1000 700) "A4_2x2" 300 parts
                  this' defaultOptions pages)
        as [Hlen Hlabels];
        [vm_compute; reflexivity | reflexivity | vm_compute; reflexivity |]
  end.
  split; [exact Hlen|]. split; [vm_compute; reflexivity|].
  intros i part page Hpart Hpage.
  destruct (Hlabels i part page Hpart Hpage) as (Hnum & Htotal & _).
  split; [exact Hnum | exact Htotal].
Defined.

(** C9 as stated fails on the texts: no page of the four-part export
    carries the label ["Page 1 of 4"]. *)
Lemma export_has_no_english_label :
  ∃ pages,
    App.exportPDF (fun _ => true) exampleFont (exampleApp "A4_2x2" 300)
      = Js.Ok pages ∧
    length pages = 4%nat ∧
    ("Page 1 of 4" ∉ concat (texts <$> pages)) ∧
    ("Position: Row 1, Column 1 | A4 | 300 DPI" ∉ concat (texts <$> pages)).
Proof.
  eexists. split; [vm_compute; reflexivity|]. split; [done|].
  split; apply (bool_decide_eq_false_1 _); by vm_compute.
Qed.

End Labels.

(** * Further properties of the code *)

(** ** The processor's state *)

Section ProcessorState.

Import ImageProcessor.

(** What [divideImage] returns, and the processor it leaves, depend on the
    processor only through the loaded image. *)
Lemma divideImage_ext a b pattern dpi :
  originalImage a = originalImage b →
  divideImage a pattern dpi = divideImage b pattern dpi.
Proof. intros Himg. unfold divideImage. by rewrite Himg. Qed.

Lemma divideImage_Ok_state this pattern dpi parts this' :
  divideImage this pattern dpi = Js.Ok (parts, this') →
  originalImage this' = originalImage this ∧ imageParts this' = parts.
Proof.
  unfold divideImage. intros Hdiv.
  destruct (originalImage this) as [img|]; [|done].
  destruct (getGridDimensions pattern) as [g| |]; [| |done];
    by injection Hdiv as <- <-.
Qed.

(** X1. A call of [divideImage] that returns keeps the loaded image and
    stores the returned parts in [imageParts]; nothing of an earlier call
    survives in the result, so the same call made again on the processor it
    left returns the same parts and leaves the same processor, and any
    other call behaves as it would have before. *)
Theorem divideImage_repeatable this pattern dpi parts this' :
  divideImage this pattern dpi = Js.Ok (parts, this') →
  originalImage this' = originalImage this ∧
  imageParts this' = parts ∧
  divideImage this' pattern dpi = Js.Ok (parts, this') ∧
  ∀ pattern' dpi',
    divideImage this' pattern' dpi' = divideImage this pattern' dpi'.
Proof.
  intros Hdiv.
  destruct (divideImage_Ok_state _ _ _ _ _ Hdiv) as [Himg Hparts].
  split_and!; [done..| |].
  - by rewrite (divideImage_ext this' this).
  - intros pattern' dpi'. by apply divideImage_ext.
Qed.

Lemma divideImage_repeatable_witness :
  ∃ parts this',
    divideImage (loaded 1000 700) "A3_1x2" 600 = Js.Ok (parts, this') ∧
    length parts = 2 ∧
    imageParts this' = parts ∧
    divideImage this' "A3_1x2" 600 = Js.Ok (parts, this').
Proof.
  eexists _, _. split; [vm_compute; reflexivity|]. split; [reflexivity|].
  match goal with
  | |- imageParts ?s = ?p ∧ _ =>
      destruct (divideImage_repeatable (loaded 1000 700) "A3_1x2" 600 p s)
        as (_ & Hparts & Hagain & _); [vm_compute; reflexivity|]
  end.
  split; [exact Hparts | exact Hagain].
Defined.

(** X2. Whatever the pattern name, [divideImage] returns one, two or four
    parts, or none at all for a name inherited from [Object.prototype];
    every part names a paper of [PAPER_SIZES], and [totalParts] is the
    number of parts returned. *)
Theorem divideImage_at_most_four this pattern dpi parts this' :
  divideImage this pattern dpi = Js.Ok (parts, this') →
  (length parts = 1 ∨ length parts = 2 ∨ length parts = 4 ∨
   (parts = [] ∧ pattern ∈ Js.objectPrototypeKeys)) ∧
  Forall (fun part =>
            is_Some (Constants.PAPER_SIZES !! paperSize part) ∧
            totalParts part = length parts) parts.
Proof.
  unfold divideImage. intros Hdiv.
  destruct (originalImage this) as [img|]; [|done].
  destruct (getGridDimensions pattern) as [g| |] eqn:Hg; [| |done].
  - injection Hdiv as <- _. rewrite divideLoop_rowMajor, rowMajor_length.
    destruct (getGridDimensions_entry _ _ Hg) as [[id Hid] [Hr Hc]].
    split; [nia|].
    apply rowMajor_Forall. intros row col _ _. split; [|done]. simpl.
    apply elem_of_list_to_map_2 in Hid.
    repeat (apply elem_of_cons in Hid as [[= _ ->]|Hid];
            [eexists; by vm_compute|]).
    by apply elem_of_nil in Hid.
  - injection Hdiv as <- _. split; [|constructor].
    right. right. right. split; [done|].
    unfold getGridDimensions, Js.get at 1 in Hg.
    destruct (patterns !! pattern); [done|].
    by destruct (decide (pattern ∈ Js.objectPrototypeKeys)).
Qed.

Lemma divideImage_at_most_four_witness :
  ∃ parts this',
    divideImage (loaded 1000 700) "no such pattern" 300
      = Js.Ok (parts, this') ∧
    length parts = 4 ∧
    Forall (fun part =>
              is_Some (Constants.PAPER_SIZES !! paperSize part) ∧
              totalParts part = 4) parts.
Proof.
  eexists _, _. split; [vm_compute; reflexivity|]. split; [reflexivity|].
  match goal with
  | |- Forall _ ?p =>
      edestruct (divideImage_at_most_four (loaded 1000 700)
                   "no such pattern" 300 p) as [_ Hparts];
        [vm_compute; reflexivity|]
  end.
  exact Hparts.
Defined.

(** [cleanup] unloads the image: afterwards [divideImage] throws
    ['No hay imagen cargada'] for every pattern while [generatePreview]
    returns an empty list without throwing, and a second [cleanup] changes
    nothing. A [loadImage] that fails leaves the processor as it was, and
    one that succeeds after a [cleanup] installs its image. *)
Lemma cleanup_unloads this pattern dpi previewSize img :
  divideImage (cleanup this) pattern dpi
    = Js.Throw (Js.Error "No hay imagen cargada") ∧
  generatePreview (cleanup this) pattern previewSize
    = Js.Ok ([], cleanup this) ∧
  cleanup (cleanup this) = cleanup this ∧
  (loadImage this None).2 = this ∧
  originalImage (loadImage (cleanup this) (Some img)).2 = Some img.
Proof. by split_and!. Qed.

End ProcessorState.

(** ** [generatePreview] *)

Section Previews.

Import ImageProcessor.
Local Open Scope Q_scope.

Lemma divideImage_Ok_partNumbers this pattern dpi parts this' :
  divideImage this pattern dpi = Js.Ok (parts, this') →
  partNumber <$> parts = seq 1 (length parts) ∧
  Forall (fun part => totalParts part = length parts ∧ ImageProcessor.dpi part = dpi)
         parts.
Proof.
  intros Hdiv. split.
  - apply list_eq. intros i. rewrite list_lookup_fmap.
    destruct (parts !! i) as [part|] eqn:Hi; simpl.
    + destruct (divideImage_Ok_numbering _ _ _ _ _ Hdiv i part Hi) as [-> _].
      rewrite lookup_seq_lt by (by eapply lookup_lt_Some).
      f_equal. lia.
    + symmetry. apply lookup_ge_None. rewrite length_seq.
      by apply lookup_ge_None.
  - apply Forall_lookup. intros i part Hi.
    split; [by eapply divideImage_Ok_numbering|].
    revert Hdiv. unfold divideImage.
    destruct (originalImage this) as [img|]; [|done].
    destruct (getGridDimensions pattern) as [g| |]; [| |done];
      intros [= <- _]; [|done].
    rewrite divideLoop_rowMajor in Hi.
    by apply rowMajor_lookup_inv in Hi as (row & col & _ & _ & _ & ->).
Qed.

(** X3. [generatePreview] returns no preview (and does not throw) when no
    image is loaded. Otherwise it returns one preview for each part of
    [divideImage (pattern)] at 300 DPI, in the order of the parts: the
    previews are numbered 1, 2, ... as returned, each carries the number of
    previews as [totalParts], and position and paper are those of its
    part. *)
Theorem generatePreview_parts this pattern previewSize previews this' :
  generatePreview this pattern previewSize = Js.Ok (previews, this') →
  Preview.partNumber <$> previews = seq 1 (length previews) ∧
  Forall (fun pv => Preview.totalParts pv = length previews) previews ∧
  match originalImage this with
  | None => previews = [] ∧ this' = this
  | Some _ =>
      ∃ parts,
        divideImage this pattern 300 = Js.Ok (parts, this') ∧
        Forall2 (fun pv part =>
                   Preview.position pv = position part ∧
                   Preview.paperSize pv = paperSize part ∧
                   dpi part = 300%nat) previews parts
  end.
Proof.
  unfold generatePreview. intros Hprev.
  destruct (originalImage this) as [img|] eqn:Himg.
  - destruct (divideImage this pattern 300) as [[parts s]|] eqn:Hdiv; [|done].
    injection Hprev as <- <-.
    destruct (divideImage_Ok_partNumbers _ _ _ _ _ Hdiv) as [Hnum Htotal].
    rewrite length_fmap, <- list_fmap_compose. split_and!.
    + exact Hnum.
    + apply Forall_fmap. eapply Forall_impl; [exact Htotal|].
      by intros part [? _].
    + exists parts. split; [done|].
      apply Forall2_fmap_l, Forall_Forall2_diag.
      eapply Forall_impl; [exact Htotal|]. by intros part [_ ?].
  - by injection Hprev as <- <-.
Qed.

Lemma generatePreview_parts_witness :
  ∃ previews this',
    generatePreview (loaded 1000 700) "A4_2x2" 200 = Js.Ok (previews, this') ∧
    Preview.partNumber <$> previews = [1; 2; 3; 4]%nat ∧
    Forall (fun pv => Preview.totalParts pv = 4%nat) previews.
Proof.
  eexists _, _. split; [vm_compute; reflexivity|].
  match goal with
  | |- _ <$> ?pvs = _ ∧ _ =>
      edestruct (generatePreview_parts (loaded 1000 700) "A4_2x2" 200 pvs)
        as (Hnum & Htotal & _); [vm_compute; reflexivity|]
  end.
  split; [exact Hnum | exact Htotal].
Defined.

Lemma previewOf_size previewSize part :
  (0 < width (dimensions part))%nat →
  (0 < height (dimensions part))%nat →
  0 < previewSize →
  let w := (Preview.dimensions (previewOf previewSize part)).1 in
  let h := (Preview.dimensions (previewOf previewSize part)).2 in
  Qmax w h == previewSize ∧ 0 < w ∧ 0 < h ∧
  w * inject_Z (Z.of_nat (height (dimensions part)))
    == h * inject_Z (Z.of_nat (width (dimensions part))).
Proof.
  intros Hw Hh Hs. unfold previewOf. cbv zeta.
  apply num_pos in Hw, Hh. unfold PDFGenerator.num in Hw, Hh.
  set (pw := inject_Z (Z.of_nat (width (dimensions part)))) in *.
  set (ph := inject_Z (Z.of_nat (height (dimensions part)))) in *.
  assert (0 < pw / ph) as Ha by (by apply Qdiv_pos).
  destruct (Qlt_le_dec 1 (pw / ph)) as [Hwide|Htall]; simpl.
  - assert (0 < previewSize / (pw / ph)) as Hpos by (by apply Qdiv_pos).
    assert (previewSize / (pw / ph) <= previewSize) as Hle.
    { apply Qle_shift_div_r; [done|]. nra. }
    split_and!; [by apply Q.max_l|done..|].
    field. split; lra.
  - assert (0 < previewSize * (pw / ph)) as Hpos by nra.
    assert (previewSize * (pw / ph) <= previewSize) as Hle by nra.
    split_and!; [by apply Q.max_r|done..|].
    field. lra.
Qed.

(** X4. For an image at least as wide as the grid has columns and as tall
    as it has rows (so that every part has pixels), and a positive
    [previewSize], every preview has its longer side equal to
    [previewSize], both sides positive, and the proportions of its part. *)
Theorem generatePreview_size this img pattern g previewSize :
  originalImage this = Some img →
  getGridDimensions pattern = Js.Own g →
  (cols g ≤ width img)%nat →
  (rows g ≤ height img)%nat →
  0 < previewSize →
  ∃ previews this',
    generatePreview this pattern previewSize = Js.Ok (previews, this') ∧
    length previews = (rows g * cols g)%nat ∧
    Forall (fun pv =>
              let w := (Preview.dimensions pv).1 in
              let h := (Preview.dimensions pv).2 in
              Qmax w h == previewSize ∧ 0 < w ∧ 0 < h ∧
              w * inject_Z (Z.of_nat (height img / rows g))
                == h * inject_Z (Z.of_nat (width img / cols g))) previews.
Proof.
  intros Himg Hg Hc Hr Hs. unfold generatePreview. rewrite Himg.
  rewrite (divideImage_loaded this img pattern 300 g Himg Hg). cbv zeta.
  eexists _, _. split; [reflexivity|].
  rewrite length_fmap, rowMajor_length. split; [done|].
  apply Forall_fmap, rowMajor_Forall. intros row col _ _.
  destruct (getGridDimensions_entry _ _ Hg) as [_ [Hrows Hcols]].
  apply (previewOf_size previewSize); simpl; [| |done].
  - apply Nat.div_str_pos. lia.
  - apply Nat.div_str_pos. lia.
Qed.

Lemma generatePreview_size_witness :
  ∃ previews this',
    generatePreview (loaded 1000 700) "A4_2x2" 200 = Js.Ok (previews, this') ∧
    length previews = 4%nat ∧
    Forall (fun pv =>
              let w := (Preview.dimensions pv).1 in
              let h := (Preview.dimensions pv).2 in
              Qmax w h == 200 ∧ 0 < w ∧ 0 < h ∧
              w * inject_Z (Z.of_nat (700 / 2))
                == h * inject_Z (Z.of_nat (1000 / 2))) previews.
Proof.
  apply (generatePreview_size (loaded 1000 700)
           {| width := 1000; height := 700 |} "A4_2x2" (grid 2 2 "A4") 200).
  - reflexivity.
  - vm_compute; reflexivity.
  - simpl. apply Nat.leb_le. reflexivity.
  - simpl. apply Nat.leb_le. reflexivity.
  - reflexivity.
Defined.

End Previews.

(** ** Unit conversions *)

Section Conversions.

Import Constants.





End Conversions.

(** ** More on [addImageToPage] and [generatePDF] *)

Section Fit.

Import PDFGenerator.
Local Open Scope Q_scope.






End Fit.

Section Documents.

Import PDFGenerator Statements.
Local Open Scope Q_scope.

Variable embedPng : ImageProcessor.ImagePart → bool.
Variable font : PDFFont.

Lemma generatePDF_Throw_message parts options error :
  generatePDF embedPng font parts options = Js.Throw error →
  ∃ cause, error = Js.Error ("Error al generar PDF: " +:+ cause).
Proof.
  unfold generatePDF.
  destruct (forEachPart _ _ _ _ _ _ _); [done|].
  intros [= <-]. by eexists.
Qed.

Lemma generatePDF_Ok_embedded parts options pages :
  generatePDF embedPng font parts options = Js.Ok pages →
  Forall (fun part =>
            is_Some (Constants.PAPER_SIZES !! paperSize options) ∧
            embedPng part = true) parts.
Proof.
  intros Hgen. apply generatePDF_Ok_inv in Hgen as [_ Hpages].
  apply Forall_lookup. intros i part Hi.
  apply Hpages in Hi as (page & _ & Hc).
  apply composePage_Ok_inv in Hc as (paper & Hpaper & Hembed & _).
  by rewrite Hpaper.
Qed.

(** The size of every page of a document. *)
Lemma generatePDF_Ok_sizes parts options pages :
  generatePDF embedPng font parts options = Js.Ok pages →
  Forall (fun page =>
            ∃ paper,
              Constants.PAPER_SIZES !! paperSize options = Some paper ∧
              getWidth page =
                num (if isLandscape options then Constants.heightPx paper
                     else Constants.widthPx paper) ∧
              getHeight page =
                num (if isLandscape options then Constants.widthPx paper
                     else Constants.heightPx paper)) pages.
Proof.
  intros Hgen. apply generatePDF_Ok_inv in Hgen as [Hlen Hpages].
  apply Forall_lookup. intros i page Hi.
  destruct (parts !! i) as [part|] eqn:Hpart.
  - apply Hpages in Hpart as (page' & Hi' & Hc).
    assert (page' = page) as -> by congruence.
    apply composePage_Ok_inv in Hc as (paper & Hpaper & _ & Hw & Hh & _).
    by exists paper.
  - apply lookup_ge_None in Hpart. apply lookup_lt_Some in Hi. lia.
Qed.



End Documents.


(** ** [exportPDF] *)

Section ExportPath.

Import PDFGenerator.
Local Open Scope Q_scope.

(** For every name of [DIVISION_PATTERNS] the partitioner finds a grid of
    that many rows and columns (for the two names its own table misses,
    the grid of the fallback), and the paper of the pattern is in
    [PAPER_SIZES]. *)
Lemma DIVISION_PATTERNS_grid id p :
  Constants.DIVISION_PATTERNS !! id = Some p →
  (∃ g, ImageProcessor.getGridDimensions id = Js.Own g ∧
        ImageProcessor.rows g = Constants.rows p ∧
        ImageProcessor.cols g = Constants.cols p) ∧
  is_Some (Constants.PAPER_SIZES !! Constants.paperSize p).
Proof.
  intros Hid. apply elem_of_list_to_map_2 in Hid.
  repeat (apply elem_of_cons in Hid as [[= -> ->]|Hid];
          [split; [eexists; by vm_compute|eexists; by vm_compute]|]).
  by apply elem_of_nil in Hid.
Qed.

(** The partitioner's table has no name that [DIVISION_PATTERNS] lacks. *)
Lemma patterns_named id :
  Constants.DIVISION_PATTERNS !! id = None →
  ImageProcessor.patterns !! id = None.
Proof.
  intros Hnone.
  destruct (ImageProcessor.patterns !! id) as [g|] eqn:Hid; [|done].
  apply elem_of_list_to_map_2 in Hid.
  repeat (apply elem_of_cons in Hid as [[= -> _]|Hid];
          [by vm_compute in Hnone|]).
  by apply elem_of_nil in Hid.
Qed.

(** X11. With a file held, an image loaded that is at least as large as
    the grid (the canvas gives no pixels for an empty part), and every part
    accepted by pdf-lib, [exportPDF] produces for
    every pattern named in [DIVISION_PATTERNS] exactly [rows * cols] pages,
    each of the pixel size of that pattern's paper, turned when the
    pattern is [landscape]. *)
Theorem exportPDF_named_pattern embedPng font this img p :
  App.currentFile this = true →
  ImageProcessor.originalImage (App.imageProcessor this) = Some img →
  Constants.DIVISION_PATTERNS !! App.currentPattern this = Some p →
  (Constants.cols p ≤ ImageProcessor.width img)%nat →
  (Constants.rows p ≤ ImageProcessor.height img)%nat →
  (∀ part, embedPng part = true) →
  ∃ pages paper,
    App.exportPDF embedPng font this = Js.Ok pages ∧
    length pages = (Constants.rows p * Constants.cols p)%nat ∧
    Constants.PAPER_SIZES !! Constants.paperSize p = Some paper ∧
    Forall (fun page =>
              getWidth page =
                num (if bool_decide (Constants.landscape p = Some true)
                     then Constants.heightPx paper
                     else Constants.widthPx paper) ∧
              getHeight page =
                num (if bool_decide (Constants.landscape p = Some true)
                     then Constants.widthPx paper
                     else Constants.heightPx paper)) pages.
Proof.
  intros Hfile Himg Hp _ _ Hembed.
  destruct (DIVISION_PATTERNS_grid _ _ Hp)
    as [(g & Hg & Hrows & Hcols) [paper Hpaper]].
  unfold App.exportPDF. rewrite Hfile.
  rewrite (divideImage_loaded _ img _ _ g Himg Hg). cbv zeta.
  unfold App.exportOptions, Js.get. rewrite Hp. simpl.
  set (parts := ImageProcessor.rowMajor _ _ _).
  set (options := {| paperSize := Constants.paperSize p |}).
  destruct (generatePDF_total embedPng font parts options paper Hpaper)
    as [pages Hgen].
  { apply Forall_forall. by intros part _. }
  exists pages, paper. split; [done|].
  destruct (generatePDF_Ok_inv _ _ _ _ _ Hgen) as [Hlen _].
  split.
  { rewrite Hlen. unfold parts.
    by rewrite rowMajor_length, Hrows, Hcols. }
  split; [done|].
  eapply Forall_impl; [by apply (generatePDF_Ok_sizes _ _ _ _ _ Hgen)|].
  simpl. intros page (paper' & Hpaper' & Hw & Hh).
  assert (paper' = paper) as -> by congruence. done.
Qed.

Lemma exportPDF_named_pattern_witness :
  ∃ pages,
    App.exportPDF (fun _ => true) Statements.exampleFont
      (Statements.exampleApp "A3_2x2_H" 600) = Js.Ok pages ∧
    length pages = 4%nat ∧
    Forall (fun page =>
              getWidth page = num 4961 ∧ getHeight page = num 3508) pages.
Proof.
  destruct (exportPDF_named_pattern (fun _ => true) Statements.exampleFont
              (Statements.exampleApp "A3_2x2_H" 600)
              {| ImageProcessor.width := 1000; ImageProcessor.height := 700 |}
              (Constants.pat 2 2 "A3" (Some true)))
    as (pages & paper & Hexport & Hlen & Hpaper & Hsizes).
  - reflexivity.
  - reflexivity.
  - vm_compute; reflexivity.
  - simpl. apply Nat.leb_le. reflexivity.
  - simpl. apply Nat.leb_le. reflexivity.
  - reflexivity.
  - exists pages. split; [exact Hexport|]. split; [exact Hlen|].
    vm_compute in Hpaper. injection Hpaper as <-. exact Hsizes.
Defined.

(** X12. For a pattern name that is in neither table and is not inherited
    from [Object.prototype], and an image of at least 2 by 2 pixels, the
    partitioner falls back to four parts, but
    the export does not: reading the paper of the missing
    [DIVISION_PATTERNS] entry throws a [TypeError]. *)
Theorem exportPDF_unknown_pattern embedPng font this img :
  App.currentFile this = true →
  ImageProcessor.originalImage (App.imageProcessor this) = Some img →
  (2 ≤ ImageProcessor.width img)%nat →
  (2 ≤ ImageProcessor.height img)%nat →
  Constants.DIVISION_PATTERNS !! App.currentPattern this = None →
  App.currentPattern this ∉ Js.objectPrototypeKeys →
  (∃ parts this',
     ImageProcessor.divideImage (App.imageProcessor this)
       (App.currentPattern this) (App.currentDpi this)
       = Js.Ok (parts, this') ∧
     length parts = 4%nat) ∧
  App.exportPDF embedPng font this = Js.Throw Js.TypeError.
Proof.
  intros Hfile Himg _ _ Hnone Hproto.
  pose proof (getGridDimensions_fallback _ (patterns_named _ Hnone) Hproto)
    as Hg.
  pose proof (divideImage_loaded _ img _ (App.currentDpi this) _ Himg Hg)
    as Hdiv. cbv zeta in Hdiv.
  split.
  - eexists _, _. split; [exact Hdiv|]. apply rowMajor_length.
  - unfold App.exportPDF. rewrite Hfile, Hdiv.
    unfold App.exportOptions, Js.get. rewrite Hnone.
    by rewrite decide_False.
Qed.

Lemma exportPDF_unknown_pattern_witness :
  (∃ parts this',
     ImageProcessor.divideImage (ImageProcessor.loaded 1000 700) "A2_3x3" 300
       = Js.Ok (parts, this') ∧
     length parts = 4%nat) ∧
  App.exportPDF (fun _ => true) Statements.exampleFont
    (Statements.exampleApp "A2_3x3" 300) = Js.Throw Js.TypeError.
Proof.
  apply (exportPDF_unknown_pattern (fun _ => true) Statements.exampleFont
           (Statements.exampleApp "A2_3x3" 300)
           {| ImageProcessor.width := 1000; ImageProcessor.height := 700 |}).
  - reflexivity.
  - reflexivity.
  - simpl. apply Nat.leb_le. reflexivity.
  - simpl. apply Nat.leb_le. reflexivity.
  - vm_compute; reflexivity.
  - apply (bool_decide_eq_false_1 _). vm_compute; reflexivity.
Defined.

(** X13. When pdf-lib refuses the image of a part, the message [exportPDF]
    shows carries the prefix twice: once from the [catch] of [generatePDF]
    and once from its own. *)
Theorem exportPDF_double_prefix embedPng font this parts this' p :
  App.currentFile this = true →
  ImageProcessor.divideImage (App.imageProcessor this)
    (App.currentPattern this) (App.currentDpi this) = Js.Ok (parts, this') →
  Constants.DIVISION_PATTERNS !! App.currentPattern this = Some p →
  Exists (fun part => embedPng part = false) parts →
  ∃ cause,
    App.exportPDFError embedPng font this
      = Some ("Error al generar PDF: " +:+ "Error al generar PDF: " +:+ cause).
Proof.
  intros Hfile Hdiv Hp Hfail.
  unfold App.exportPDFError, App.exportPDF. rewrite Hfile, Hdiv.
  unfold App.exportOptions, Js.get. rewrite Hp. simpl.
  set (options := {| paperSize := Constants.paperSize p |}).
  destruct (generatePDF embedPng font parts options) as [pages|error] eqn:Hgen.
  - apply generatePDF_Ok_embedded in Hgen.
    apply Exists_exists in Hfail as (part & Hin & Hpart).
    rewrite Forall_forall in Hgen. destruct (Hgen part Hin) as [_ Hok].
    congruence.
  - apply generatePDF_Throw_message in Hgen as [cause ->]. by exists cause.
Qed.

Lemma exportPDF_double_prefix_witness :
  ∃ cause,
    App.exportPDFError (fun _ => false) Statements.exampleFont
      (Statements.exampleApp "A4_1x2" 300)
      = Some ("Error al generar PDF: " +:+ "Error al generar PDF: " +:+ cause).
Proof.
  eapply (exportPDF_double_prefix (fun _ => false) Statements.exampleFont
            (Statements.exampleApp "A4_1x2" 300)).
  - reflexivity.
  - vm_compute; reflexivity.
  - vm_compute; reflexivity.
  - apply Exists_cons_hd. reflexivity.
Defined.

End ExportPath.

(** ** The file uploader *)

Section Uploader.

Import FileUploader.

Variable formatFileSize : N → string.
Variable onFileLoad : FileInfo → Js.Result unit.

Lemma isValidFormat_true f :
  isValidFormat f = true ↔ type f ∈ Constants.SUPPORTED_FORMATS.
Proof. unfold isValidFormat. apply bool_decide_eq_true. Qed.

Lemma removeFile_spec fileId files other :
  other ∈ removeFile fileId files ↔ other ∈ files ∧ id other ≠ fileId.
Proof. unfold removeFile. rewrite list_elem_of_filter. tauto. Qed.

(** X14. [handleFileAdd] hands a file to the [onFileLoad] callback exactly
    when its type is one of the five of [SUPPORTED_FORMATS] and its size is
    at most [MAX_FILE_SIZE] (52428800 bytes, the limit itself included);
    the [fileInfo] handed over carries the file with its own name, size
    and type. *)
Theorem handleFileAdd_callback files item :
  let calls := (handleFileAdd formatFileSize onFileLoad files item).2 in
  (is_Some (onFileLoad_arg calls) ↔
   type (file item) ∈ Constants.SUPPORTED_FORMATS ∧
   (size (file item) ≤ 52428800)%N) ∧
  match onFileLoad_arg calls with
  | Some info =>
      info_file info = file item ∧ info_name info = name (file item) ∧
      info_size info = size (file item) ∧ info_type info = type (file item) ∧
      formattedSize info = formatFileSize (size (file item))
  | None => True
  end.
Proof.
  unfold handleFileAdd, tryFileAdd.
  destruct (isValidFormat (file item)) eqn:Hfmt; simpl.
  - apply isValidFormat_true in Hfmt.
    destruct (Constants.MAX_FILE_SIZE <? size (file item))%N eqn:Hsize.
    + apply N.ltb_lt in Hsize. change Constants.MAX_FILE_SIZE with 52428800%N in Hsize.
      simpl. split; [|done]. split; [by intros [? ?]|]. intros [_ ?]. lia.
    + apply N.ltb_ge in Hsize. change Constants.MAX_FILE_SIZE with 52428800%N in Hsize.
      destruct (onFileLoad _); simpl; (split; [|done]); split; eauto.
  - assert (type (file item) ∉ Constants.SUPPORTED_FORMATS) as Hbad.
    { intros Hin. apply isValidFormat_true in Hin. congruence. }
    split; [|done]. split; [by intros [? ?]|]. by intros [? _].
Qed.

(** X15. [handleFileAdd] reports at most one error. With none, the files of
    the uploader are untouched and the callback has accepted the file.
    With one, the file has been removed from the uploader (and no other
    file has), and the message tells why: an unsupported type, also for a
    file that is too large as well; else a size above [MAX_FILE_SIZE]; else
    the error of the callback itself. *)
Theorem handleFileAdd_errors files item :
  let r := handleFileAdd formatFileSize onFileLoad files item in
  match onError_args r.2 with
  | [] =>
      r.1 = files ∧
      type (file item) ∈ Constants.SUPPORTED_FORMATS ∧
      (size (file item) ≤ Constants.MAX_FILE_SIZE)%N ∧
      onFileLoad (fileInfo formatFileSize (file item)) = Js.Ok tt
  | [message] =>
      (∀ other, other ∈ r.1 ↔ other ∈ files ∧ id other ≠ id item) ∧
      (((type (file item) ∉ Constants.SUPPORTED_FORMATS) ∧
        message = "Formato de archivo no soportado") ∨
       (type (file item) ∈ Constants.SUPPORTED_FORMATS ∧
        (Constants.MAX_FILE_SIZE < size (file item))%N ∧
        message = "Archivo demasiado grande. Máximo: "
                    +:+ formatFileSize Constants.MAX_FILE_SIZE) ∨
       (type (file item) ∈ Constants.SUPPORTED_FORMATS ∧
        (size (file item) ≤ Constants.MAX_FILE_SIZE)%N ∧
        ∃ error,
          onFileLoad (fileInfo formatFileSize (file item)) = Js.Throw error ∧
          message = Js.message error))
  | _ => False
  end.
Proof.
  unfold handleFileAdd, tryFileAdd.
  destruct (isValidFormat (file item)) eqn:Hfmt; simpl.
  - apply isValidFormat_true in Hfmt.
    destruct (Constants.MAX_FILE_SIZE <? size (file item))%N eqn:Hsize.
    + apply N.ltb_lt in Hsize. simpl.
      split; [intros other; apply removeFile_spec|]. right. left. done.
    + apply N.ltb_ge in Hsize.
      destruct (onFileLoad _) as [[]|error] eqn:Hcall; simpl.
      * done.
      * split; [intros other; apply removeFile_spec|]. right. right.
        split_and!; [done..|]. by exists error.
  - assert (type (file item) ∉ Constants.SUPPORTED_FORMATS) as Hbad.
    { intros Hin. apply isValidFormat_true in Hin. congruence. }
    split; [intros other; apply removeFile_spec|]. by left.
Qed.

(** X16. After [destroy] the uploader has no pond: [hasFiles] is then
    false and [clear] does nothing, but [getCurrentFile] throws a
    [TypeError]. On a live uploader [getCurrentFile] gives [null] exactly
    when there is no file, [hasFiles] is true exactly when there is one,
    and after [clear] there is none. *)
Theorem uploader_lifecycle this :
  pond (destroy this) = None ∧
  match pond this with
  | None =>
      getCurrentFile formatFileSize this = Js.Throw Js.TypeError ∧
      hasFiles this = false ∧
      clear this = this
  | Some files =>
      (getCurrentFile formatFileSize this = Js.Ok None ↔ files = []) ∧
      (hasFiles this = true ↔ files ≠ []) ∧
      getCurrentFile formatFileSize (clear this) = Js.Ok None ∧
      hasFiles (clear this) = false
  end.
Proof.
  split; [done|]. unfold getCurrentFile, hasFiles, clear.
  destruct (pond this) as [[|item files]|]; simpl; by split_and!.
Qed.

End Uploader.
